(** * Call-log service: the call store and its four request handlers

    A shallow embedding of [app.py]: the [calls] table as SQLite keeps it,
    the connection with its pending transaction, the four SQL statements the
    handlers issue, Python's list slicing, and the handlers themselves,
    written in a small state-and-exception monad over the connection.

    Modelling assumptions, stated once:
    - the JSON body of a request is an object whose [from_number] and
      [to_number] are null or a text that SQLite stores as it is, that is a
      string with a UTF-8 encoding (a missing key reads as null through
      [request.json.get]); numbers, arrays, objects and strings with lone
      surrogates in those fields are outside this model;
    - record ids, page numbers and page sizes are Python integers, taken
      here as [Z]; an id bound as a statement parameter has to fit SQLite's
      signed 64-bit INTEGER, and binding one that does not raises
      [OverflowError];
    - the [calls] table exists (it is created at start-up), and
      [datetime.now().isoformat()] is an input of the request. *)

From Stdlib Require Import List ZArith String Bool Lia Sorted.
Import ListNotations.
Open Scope string_scope.
Open Scope list_scope.
Open Scope Z_scope.

(** ** The table *)

(** What a TEXT column is asked to hold: Python's [None] binds to SQL NULL,
    a [str] binds to TEXT. *)
Definition value := option string.

(** One row of [calls]. The schema declares [id INTEGER PRIMARY KEY] and the
    three other columns [TEXT NOT NULL]; the row type itself can hold a NULL,
    it is the statements below that enforce the constraint. *)
Record row := mkRow {
  id : Z;
  from_number : value;
  to_number : value;
  start_time : value
}.

(** The table in rowid order, which is the order of a full scan. *)
Definition table := list row.

Definition not_null (v : value) : bool :=
  match v with Some _ => true | None => false end.

(** The largest rowid in use, if any. *)
Fixpoint max_rowid (t : table) : option Z :=
  match t with
  | [] => None
  | r :: t' =>
      match max_rowid t' with
      | None => Some (id r)
      | Some m => Some (Z.max (id r) m)
      end
  end.

(** The rowid SQLite gives to a row inserted without one: 1 in an empty
    table, otherwise one more than the largest in use. *)
Definition next_rowid (t : table) : Z :=
  match max_rowid t with
  | None => 1
  | Some m => m + 1
  end.

(** ** SQL comparison, three-valued *)

Definition sql_eq (a b : value) : option bool :=
  match a, b with
  | Some x, Some y => Some (String.eqb x y)
  | _, _ => None
  end.

Definition sql_or (a b : option bool) : option bool :=
  match a, b with
  | Some true, _ => Some true
  | _, Some true => Some true
  | Some false, Some false => Some false
  | _, _ => None
  end.

(** A WHERE clause keeps a row when its condition is true (not false, not
    unknown). *)
Definition sql_true (c : option bool) : bool :=
  match c with Some true => true | _ => false end.

(** [WHERE from_number = ? OR to_number = ?] with both parameters bound to
    [phone]. *)
Definition where_phone (phone : string) (r : row) : bool :=
  sql_true (sql_or (sql_eq (from_number r) (Some phone))
                   (sql_eq (to_number r) (Some phone))).

(** [WHERE id = ?] *)
Definition where_id (i : Z) (r : row) : bool := id r =? i.

(** ** The connection and the handler monad *)

(** [disk] is the committed content of the database file, [txn] what the
    open connection sees: statements change [txn], [commit] copies it to
    [disk], closing the connection drops it. *)
Record conn := mkConn { disk : table; txn : table }.

Inductive exn := IntegrityError | OverflowError.

Definition M (A : Type) : Type := conn -> (A + exn) * conn.

Definition ret {A} (a : A) : M A := fun c => (inl a, c).

Definition bind {A B} (m : M A) (k : A -> M B) : M B :=
  fun c =>
    match m c with
    | (inl a, c') => k a c'
    | (inr e, c') => (inr e, c')
    end.

Definition raise {A} (e : exn) : M A := fun c => (inr e, c).

(** [try: body except sqlite3.IntegrityError: handler] *)
Definition try_except_IntegrityError {A} (body handler : M A) : M A :=
  fun c =>
    match body c with
    | (inl a, c') => (inl a, c')
    | (inr IntegrityError, c') => handler c'
    | (inr e, c') => (inr e, c')
    end.

Notation "x <- m ;; k" := (bind m (fun x => k))
  (at level 61, m at next level, right associativity).
Notation "m ;;; k" := (bind m (fun _ => k))
  (at level 61, right associativity).

(** ** The statements *)

(** [INSERT INTO calls (from_number, to_number, start_time) VALUES (?, ?, ?)]:
    a NULL in a NOT NULL column aborts the statement; otherwise the row gets
    a fresh rowid, larger than all others, so it is last in scan order. *)
Definition execute_insert (f t s : value) : M unit :=
  fun c =>
    if not_null f && not_null t && not_null s
    then (inl tt, mkConn (disk c) (txn c ++ [mkRow (next_rowid (txn c)) f t s]))
    else raise IntegrityError c.

(** [SELECT id, from_number, to_number, start_time FROM calls
     WHERE from_number = ? OR to_number = ?], then [fetchall()]. *)
Definition select_by_phone (phone : string) : M (list row) :=
  fun c => (inl (filter (where_phone phone) (txn c)), c).

(** A Python integer bound as a statement parameter goes into a signed
    64-bit INTEGER. *)
Definition in_int64 (i : Z) : bool := (- 2 ^ 63 <=? i) && (i <? 2 ^ 63).

(** Binding the integer parameter of a statement: one that does not fit
    raises [OverflowError] and the statement does not run. *)
Definition bind_integer (i : Z) : M unit :=
  fun c => if in_int64 i then (inl tt, c) else raise OverflowError c.

(** [SELECT * FROM calls WHERE id = ?], then [fetchone()]. *)
Definition select_by_id (i : Z) : M (option row) :=
  bind_integer i ;;;
  (fun c => (inl (find (where_id i) (txn c)), c)).

Definition set_numbers (f t : value) (r : row) : row :=
  mkRow (id r) f t (start_time r).

(** [UPDATE calls SET from_number = ?, to_number = ? WHERE id = ?]: the
    NOT NULL constraints are checked on each row the statement changes. *)
Definition execute_update (f t : value) (i : Z) : M unit :=
  bind_integer i ;;;
  (fun c =>
    if existsb (where_id i) (txn c) && negb (not_null f && not_null t)
    then raise IntegrityError c
    else (inl tt,
          mkConn (disk c)
                 (map (fun r => if where_id i r then set_numbers f t r else r)
                      (txn c)))).

(** [DELETE FROM calls WHERE id = ?] *)
Definition execute_delete (i : Z) : M unit :=
  bind_integer i ;;;
  (fun c =>
    (inl tt, mkConn (disk c) (filter (fun r => negb (where_id i r)) (txn c)))).

(** [conn.commit()] *)
Definition commit : M unit :=
  fun c => (inl tt, mkConn (txn c) (txn c)).

(** ** Python list slicing *)

(** How [l[start:stop]] reads one bound on a list of length [n]: a negative
    bound counts from the end, and both are clamped to [0 .. n]. *)
Definition slice_bound (n i : Z) : Z :=
  if i <? 0 then Z.max (i + n) 0 else Z.min i n.

Definition py_slice {A} (l : list A) (start stop : Z) : list A :=
  let n := Z.of_nat (List.length l) in
  let lo := slice_bound n start in
  let hi := slice_bound n stop in
  firstn (Z.to_nat (hi - lo)) (skipn (Z.to_nat lo) l).

(** ** JSON payloads and responses *)

#[warnings="-register-all"]
Inductive json :=
| JNull
| JBool (b : bool)
| JInt (z : Z)
| JStr (s : string)
| JList (l : list json)
| JDict (d : list (string * json)).

Record response := Response { body : json; status : Z }.

(** [jsonify(x)] answers 200, [jsonify(x), code] answers [code]; [jsonify]
    of several arguments is the JSON array of them. *)
Definition json_of_value (v : value) : json :=
  match v with Some s => JStr s | None => JNull end.

Definition success_true : json := JDict [("success", JBool true)].

Definition input_not_valid : json :=
  JList [JStr "Input not Valid";
         JDict [("Sample Input",
                 JDict [("from_number", JInt 10000000);
                        ("to_number", JInt 111111111)])]].

Definition provide_phone : json :=
  JDict [("success", JBool false); ("Provide query", JStr "phone")].

Definition phone_not_valid : json :=
  JDict [("success", JBool false); ("phone", JStr "Not Valid")].

Definition call_not_found : json := JDict [("error", JStr "Call not found")].

Definition call_record_updated : json :=
  JList [JStr "Call Record Updated"; success_true].

Definition call_record_deleted : json :=
  JList [JStr "Call Record Deleted"; success_true].

(** The dictionary appended to [paginated_calls] for one row. *)
Definition call_dict (r : row) : json :=
  JDict [("id", JInt (id r));
         ("from_number", json_of_value (from_number r));
         ("to_number", json_of_value (to_number r));
         ("start_time", json_of_value (start_time r))].

Definition call_data (calls : list json) : json :=
  JDict [("success", JBool true); ("data", JList calls)].

(** ** The handlers *)

(** [POST /initiate-call] *)
Definition initiate_call (now : string) (from_number to_number : value)
  : M response :=
  try_except_IntegrityError
    (execute_insert from_number to_number (Some now) ;;;
     commit ;;;
     ret (Response success_true 200))
    (ret (Response input_not_valid 500)).

(** [not phone]: the parameter is absent or the empty string. *)
Definition falsy (phone : option string) : bool :=
  match phone with
  | None => true
  | Some s => String.eqb s ""
  end.

(** [request.args.get(name, default=d, type=int)]: the argument is [None]
    when the parameter is absent or does not parse as an integer. *)
Definition arg_default (d : Z) (a : option Z) : Z :=
  match a with Some z => z | None => d end.

(** [GET /call-report] *)
Definition get_call_report (phone : option string) (page_arg size_arg : option Z)
  : M response :=
  match phone with
  | None => ret (Response provide_phone 500)
  | Some ph =>
      if falsy phone then ret (Response provide_phone 500)
      else
        rows <- select_by_phone ph ;;
        let page := arg_default 1 page_arg in
        let page_size := arg_default 10 size_arg in
        let start_index := (page - 1) * page_size in
        let end_index := start_index + page_size in
        let paginated_calls := map call_dict (py_slice rows start_index end_index) in
        match paginated_calls with
        | [] => ret (Response phone_not_valid 500)
        | _ => ret (Response (call_data paginated_calls) 200)
        end
  end.

(** [PUT /update-call/<int:id>] *)
Definition update_call (id_ : Z) (from_number to_number : value) : M response :=
  r <- select_by_id id_ ;;
  match r with
  | None => ret (Response call_not_found 404)
  | Some _ =>
      execute_update from_number to_number id_ ;;;
      commit ;;;
      ret (Response call_record_updated 200)
  end.

(** [DELETE /delete-call/<int:id>] *)
Definition delete_call (id_ : Z) : M response :=
  r <- select_by_id id_ ;;
  match r with
  | None => ret (Response call_not_found 404)
  | Some _ =>
      execute_delete id_ ;;;
      commit ;;;
      ret (Response call_record_deleted 200)
  end.

(** ** Requests *)

Inductive request :=
| InitiateCall (now : string) (from_number to_number : value)
| CallReport (phone : option string) (page page_size : option Z)
| UpdateCall (id_ : Z) (from_number to_number : value)
| DeleteCall (id_ : Z).

Definition handler (rq : request) : M response :=
  match rq with
  | InitiateCall now f t => initiate_call now f t
  | CallReport phone page page_size => get_call_report phone page page_size
  | UpdateCall i f t => update_call i f t
  | DeleteCall i => delete_call i
  end.

(** What a request ends in: a response, or an exception that left the
    handler. *)
Definition outcome : Type := response + exn.

(** One request against the database file: [get_db] opens a connection on
    the committed content, the handler runs, [close_db] closes the
    connection and whatever was not committed is lost. *)
Definition serve (rq : request) (db : table) : outcome * table :=
  let '(out, c) := handler rq (mkConn db db) in (out, disk c).

(** The database after a sequence of requests. *)
Fixpoint run (rqs : list request) (db : table) : table :=
  match rqs with
  | [] => db
  | rq :: rest => run rest (snd (serve rq db))
  end.

Definition is_success (o : outcome) : bool :=
  match o with
  | inl r => status r =? 200
  | inr _ => false
  end.

(** ** The listing in the specification's words *)

Definition is_phone (phone : string) (v : value) : bool :=
  match v with
  | Some s => String.eqb s phone
  | None => false
  end.

(** All records whose [from_number] equals [phone] or whose [to_number]
    equals [phone], in the order of the store. *)
Definition spec_matches (phone : string) (db : table) : list row :=
  filter (fun r => is_phone phone (from_number r) || is_phone phone (to_number r)) db.

(** The slice [[(p-1)*k, (p-1)*k + k)] of a sequence. *)
Definition spec_window {A} (l : list A) (p k : Z) : list A :=
  firstn (Z.to_nat k) (skipn (Z.to_nat ((p - 1) * k)) l).

(** Data when there are records to report, the failure payload otherwise. *)
Definition listing_response (rows : list row) : response :=
  match rows with
  | [] => Response phone_not_valid 500
  | _ => Response (call_data (map call_dict rows)) 200
  end.

(** [id INTEGER PRIMARY KEY]: the ids are signed 64-bit integers and no two
    rows share one. *)
Definition primary_key (db : table) : Prop :=
  NoDup (map id db) /\ Forall (fun r => in_int64 (id r) = true) db.

(** The NOT NULL constraints of the three text columns. *)
Definition row_not_null (r : row) : bool :=
  not_null (from_number r) && not_null (to_number r) && not_null (start_time r).

(** Rows are kept in ascending rowid order. *)
Definition rowid_order (db : table) : Prop := StronglySorted Z.lt (map id db).

(** [listByPhone(phone, p, k)] answers with the window of the specification
    over the matching records, and leaves the store as it is. *)
Definition lists_window (db : table) (phone : string) (p k : Z) : Prop :=
  serve (CallReport (Some phone) (Some p) (Some k)) db =
    (inl (listing_response (spec_window (spec_matches phone db) p k)), db).

(** ** A sample store, built by the handlers from the empty table *)

Definition three_calls : table :=
  run [InitiateCall "2024-05-01T10:00:00" (Some "100") (Some "200");
       InitiateCall "2024-05-01T10:05:00" (Some "300") (Some "100");
       InitiateCall "2024-05-01T10:10:00" (Some "300") (Some "400");
       InitiateCall "2024-05-01T10:15:00" (Some "100") (Some "400")] [].

(** ** Pages *)

(** [rows[start_index:end_index]] for a page and a page size, as the listing
    computes its two indices. *)
Definition page_rows {A} (rows : list A) (page page_size : Z) : list A :=
  py_slice rows ((page - 1) * page_size) ((page - 1) * page_size + page_size).

(** Pages 1 to [n], one after the other. *)
Definition pages_upto {A} (rows : list A) (page_size : Z) (n : nat) : list A :=
  flat_map (fun p => page_rows rows (Z.of_nat p) page_size) (seq 1 n).

(** ** Slicing *)

Section Slicing.
Context {A : Type}.
Implicit Types l : list A.

Lemma In_firstn l : forall n x, In x (firstn n l) -> In x l.
Proof.
  intros n x H. rewrite <- (firstn_skipn n l). apply in_or_app. now left.
Qed.

Lemma In_skipn l : forall n x, In x (skipn n l) -> In x l.
Proof.
  intros n x H. rewrite <- (firstn_skipn n l). apply in_or_app. now right.
Qed.

Lemma In_py_slice l start stop x : In x (py_slice l start stop) -> In x l.
Proof.
  unfold py_slice. intros H. eapply In_skipn, In_firstn, H.
Qed.

(** With a page and a page size of at least 1 both bounds are
    non-negative and Python's slice is the window of the specification. *)
Lemma py_slice_window l p k :
  1 <= p -> 1 <= k ->
  py_slice l ((p - 1) * k) ((p - 1) * k + k) = spec_window l p k.
Proof.
  intros Hp Hk. unfold py_slice, spec_window, slice_bound.
  set (s := (p - 1) * k).
  assert (Hs : 0 <= s) by (subst s; nia).
  set (n := Z.of_nat (List.length l)).
  assert (Hn : List.length l = Z.to_nat n) by (subst n; lia).
  destruct (s <? 0) eqn:E1; [lia|].
  destruct (s + k <? 0) eqn:E2; [lia|].
  destruct (Z_le_gt_dec n s) as [Hge|Hlt].
  - rewrite (skipn_all2 (n := Z.to_nat s)) by lia.
    rewrite firstn_nil.
    replace (Z.min (s + k) n - Z.min s n) with 0 by lia.
    reflexivity.
  - replace (Z.min s n) with s by lia.
    destruct (Z_le_gt_dec (s + k) n) as [Hin|Hout].
    + replace (Z.min (s + k) n - s) with k by lia. reflexivity.
    + replace (Z.min (s + k) n - s) with (n - s) by lia.
      assert (Hlen : List.length (skipn (Z.to_nat s) l) = Z.to_nat (n - s))
        by (rewrite length_skipn; lia).
      rewrite !firstn_all2 by lia. reflexivity.
Qed.

(** Page 0 asks for [l[-k:0]], which is empty whatever the list. *)
Lemma py_slice_page_zero l k : 1 <= k -> py_slice l ((0 - 1) * k) ((0 - 1) * k + k) = [].
Proof.
  intros Hk. unfold py_slice, slice_bound.
  replace ((0 - 1) * k + k) with 0 by lia.
  destruct ((0 - 1) * k <? 0) eqn:E; [|lia].
  change (0 <? 0) with false. cbv iota.
  replace (Z.to_nat _) with 0%nat by lia. reflexivity.
Qed.
End Slicing.

(** ** The listing handler *)

Lemma falsy_Some (phone : string) : phone <> "" -> falsy (Some phone) = false.
Proof.
  intros H. simpl. now apply String.eqb_neq.
Qed.

Lemma where_phone_spec phone r :
  where_phone phone r = is_phone phone (from_number r) || is_phone phone (to_number r).
Proof.
  unfold where_phone, sql_eq, is_phone.
  destruct (from_number r) as [a|], (to_number r) as [b|]; simpl;
    try destruct (String.eqb a phone); try destruct (String.eqb b phone); reflexivity.
Qed.

Lemma select_by_phone_spec phone db : filter (where_phone phone) db = spec_matches phone db.
Proof.
  unfold spec_matches. apply filter_ext. intros r. apply where_phone_spec.
Qed.

Lemma map_call_dict_response rows :
  match map call_dict rows with
  | [] => Response phone_not_valid 500
  | _ => Response (call_data (map call_dict rows)) 200
  end = listing_response rows.
Proof.
  destruct rows; reflexivity.
Qed.

(** What the handler answers once a phone is given: the listing of Python's
    slice of the matching rows; the database is not touched. *)
Lemma serve_call_report phone page size db :
  phone <> "" ->
  serve (CallReport (Some phone) page size) db =
    (inl (listing_response
            (py_slice (spec_matches phone db)
               ((arg_default 1 page - 1) * arg_default 10 size)
               ((arg_default 1 page - 1) * arg_default 10 size + arg_default 10 size))),
     db).
Proof.
  intros Hne. unfold serve, handler, get_call_report.
  rewrite (falsy_Some phone Hne).
  unfold bind, select_by_phone. cbn [txn disk].
  rewrite select_by_phone_spec, <- map_call_dict_response.
  destruct (map call_dict _); reflexivity.
Qed.

(** Without a phone, or with the empty string for one, the handler answers
    before it reads the table. *)
Lemma serve_call_report_falsy phone page size db :
  falsy phone = true ->
  serve (CallReport phone page size) db = (inl (Response provide_phone 500), db).
Proof.
  intros H. unfold serve, handler, get_call_report.
  destruct phone as [ph|]; [rewrite H|]; reflexivity.
Qed.

Lemma py_slice_nil {A} start stop : py_slice (@nil A) start stop = [].
Proof.
  unfold py_slice. now rewrite skipn_nil, firstn_nil.
Qed.

Lemma spec_window_beyond {A} (l : list A) p k :
  1 <= p -> 1 <= k -> Z.of_nat (List.length l) <= (p - 1) * k -> spec_window l p k = [].
Proof.
  intros Hp Hk Hlen. unfold spec_window.
  rewrite skipn_all2 by lia. apply firstn_nil.
Qed.

(** ** Listing: claims C1, C9 and C10 *)

(** C1. For every store, every phone given (an empty phone is no phone:
    it is the caller error the handler answers before it queries), every
    page [p >= 1] and page size [k >= 1], the listing answers with exactly
    the slice [[(p-1)*k, (p-1)*k + k)] of the records whose [from_number]
    or [to_number] is [phone], in the order of the store; when that slice
    is empty it answers with the failure payload. The store is unchanged.
    The order of the store is the order of insertion: a create adds its
    record last, and no request reorders the others. *)
Theorem get_call_report_window db phone p k :
  phone <> "" -> 1 <= p -> 1 <= k -> lists_window db phone p k.
Proof.
  intros Hne Hp Hk. unfold lists_window.
  rewrite serve_call_report by assumption.
  cbn [arg_default]. now rewrite py_slice_window.
Qed.

Lemma get_call_report_window_witness :
  serve (CallReport (Some "100") (Some 2) (Some 2)) three_calls =
    (inl (Response
            (call_data
               [call_dict (mkRow 4 (Some "100") (Some "400")
                             (Some "2024-05-01T10:15:00"))]) 200),
     three_calls).
Proof.
  apply (get_call_report_window three_calls "100" 2 2); [discriminate | lia | lia].
Defined.

(** C9. For every page size [k >= 1], the listing for a phone with no
    matching record and the listing for a phone with matching records at a
    page beyond them give the same response: the failure payload with
    status 500. A phone here is a phone given; the empty string is the
    missing parameter, answered before any query. *)
Theorem empty_result_indistinguishable db k phone1 p1 phone2 p2 :
  1 <= k -> phone1 <> "" -> phone2 <> "" ->
  spec_matches phone1 db = [] ->
  spec_matches phone2 db <> [] ->
  1 <= p2 -> Z.of_nat (List.length (spec_matches phone2 db)) <= (p2 - 1) * k ->
  serve (CallReport (Some phone1) (Some p1) (Some k)) db =
    (inl (Response phone_not_valid 500), db) /\
  serve (CallReport (Some phone2) (Some p2) (Some k)) db =
    (inl (Response phone_not_valid 500), db).
Proof.
  intros Hk Hne1 Hne2 Hnone Hsome Hp2 Hbeyond. split.
  - rewrite serve_call_report by assumption.
    rewrite Hnone, py_slice_nil. reflexivity.
  - rewrite serve_call_report by assumption. cbn [arg_default].
    rewrite py_slice_window by assumption.
    rewrite spec_window_beyond by assumption. reflexivity.
Qed.

Lemma empty_result_indistinguishable_witness :
  serve (CallReport (Some "999") (Some 1) (Some 2)) three_calls =
    (inl (Response phone_not_valid 500), three_calls) /\
  serve (CallReport (Some "100") (Some 3) (Some 2)) three_calls =
    (inl (Response phone_not_valid 500), three_calls).
Proof.
  apply (empty_result_indistinguishable three_calls 2 "999" 1 "100" 3);
    [lia | discriminate | discriminate | reflexivity | discriminate | lia
    | vm_compute; discriminate].
Defined.

(** C10. Page 0 is not rejected: for every store, non-empty phone and page
    size [k >= 1], the listing for page 0 answers with the failure payload,
    also when records match the phone, because the slice from [-k] to [0]
    is empty. *)
Theorem get_call_report_page_zero db phone k :
  phone <> "" -> 1 <= k ->
  serve (CallReport (Some phone) (Some 0) (Some k)) db =
    (inl (Response phone_not_valid 500), db).
Proof.
  intros Hne Hk. rewrite serve_call_report by assumption.
  cbn [arg_default]. now rewrite py_slice_page_zero.
Qed.

Lemma get_call_report_page_zero_witness :
  spec_matches "100" three_calls <> [] /\
  serve (CallReport (Some "100") (Some 0) (Some 2)) three_calls =
    (inl (Response phone_not_valid 500), three_calls).
Proof.
  split; [vm_compute; discriminate|].
  apply (get_call_report_page_zero three_calls "100" 2); [discriminate | lia].
Defined.

(** ** The writing handlers, request by request *)

Lemma find_where_id_absent db i : ~ In i (map id db) -> find (where_id i) db = None.
Proof.
  induction db as [|r db IH]; intros H; [reflexivity|].
  simpl in *. unfold where_id at 1.
  destruct (Z.eqb_spec (id r) i) as [E|E].
  - exfalso. apply H. now left.
  - apply IH. intros Hin. apply H. now right.
Qed.

Lemma find_where_id_present db i :
  In i (map id db) -> exists r, find (where_id i) db = Some r /\ id r = i.
Proof.
  induction db as [|r db IH]; intros H; [contradiction|].
  simpl in *. unfold where_id at 1.
  destruct (Z.eqb_spec (id r) i) as [E|E].
  - now exists r.
  - destruct H as [H|H]; [contradiction|]. now apply IH.
Qed.

Lemma find_existsb db i r : find (where_id i) db = Some r -> existsb (where_id i) db = true.
Proof.
  intros H. apply find_some in H. apply existsb_exists. now exists r.
Qed.

(** An insert that passes the NOT NULL constraints is committed as the last
    row; one that does not is answered with the error payload and nothing is
    written. *)
Lemma serve_initiate_call now f t db :
  serve (InitiateCall now f t) db =
    if not_null f && not_null t
    then (inl (Response success_true 200),
          db ++ [mkRow (next_rowid db) f t (Some now)])
    else (inl (Response input_not_valid 500), db).
Proof.
  unfold serve, handler, initiate_call, try_except_IntegrityError, bind,
    execute_insert, commit, ret, raise.
  cbn [txn disk not_null]. rewrite andb_true_r.
  destruct (not_null f && not_null t); reflexivity.
Qed.

(** An update with an id that does not fit 64 bits raises when the id is
    bound. Otherwise an update of a missing id answers 404; of an existing
    id it rewrites the two numbers when both are non-null, and otherwise
    the statement raises and nothing is committed. *)
Lemma serve_update_call i f t db :
  serve (UpdateCall i f t) db =
    if in_int64 i then
      match find (where_id i) db with
      | None => (inl (Response call_not_found 404), db)
      | Some _ =>
          if not_null f && not_null t
          then (inl (Response call_record_updated 200),
                map (fun r => if where_id i r then set_numbers f t r else r) db)
          else (inr IntegrityError, db)
      end
    else (inr OverflowError, db).
Proof.
  unfold serve, handler, update_call, select_by_id, execute_update,
    bind_integer, commit, ret, raise, bind.
  destruct (in_int64 i); [|reflexivity].
  cbn [txn disk].
  destruct (find (where_id i) db) as [r|] eqn:Hfind; [|reflexivity].
  cbn [txn disk]. rewrite (find_existsb _ _ _ Hfind). cbn [andb].
  destruct (not_null f && not_null t); reflexivity.
Qed.

Lemma serve_delete_call i db :
  serve (DeleteCall i) db =
    if in_int64 i then
      match find (where_id i) db with
      | None => (inl (Response call_not_found 404), db)
      | Some _ =>
          (inl (Response call_record_deleted 200),
           filter (fun r => negb (where_id i r)) db)
      end
    else (inr OverflowError, db).
Proof.
  unfold serve, handler, delete_call, select_by_id, execute_delete,
    bind_integer, commit, ret, raise, bind.
  destruct (in_int64 i); [|reflexivity].
  cbn [txn disk].
  destruct (find (where_id i) db); reflexivity.
Qed.

Lemma null_fails_constraint (f t : value) :
  f = None \/ t = None -> not_null f && not_null t = false.
Proof.
  intros [-> | ->]; [reflexivity|]. apply andb_false_r.
Qed.

(** ** Creation and update: claims C2 to C6 *)

(** C2. For every store, a create whose [from_number] or [to_number] is
    null fails on the NOT NULL constraint: the insert raises the integrity
    error, the handler catches it and answers with the error payload and
    status 500, and the store is left as it was. *)
Theorem initiate_call_null_rejected db now f t :
  f = None \/ t = None ->
  execute_insert f t (Some now) (mkConn db db) = (inr IntegrityError, mkConn db db) /\
  serve (InitiateCall now f t) db = (inl (Response input_not_valid 500), db).
Proof.
  intros H. split.
  - unfold execute_insert, raise. cbn [txn disk].
    now rewrite (null_fails_constraint f t H).
  - rewrite serve_initiate_call.
    now rewrite (null_fails_constraint f t H).
Qed.

Lemma initiate_call_null_rejected_witness :
  execute_insert None (Some "200") (Some "2024-05-01T11:00:00")
    (mkConn three_calls three_calls) =
    (inr IntegrityError, mkConn three_calls three_calls) /\
  serve (InitiateCall "2024-05-01T11:00:00" None (Some "200")) three_calls =
    (inl (Response input_not_valid 500), three_calls).
Proof.
  apply (initiate_call_null_rejected three_calls "2024-05-01T11:00:00" None (Some "200")).
  left. reflexivity.
Defined.

(** C3, at the failing input. An update of record 1 with a null
    [from_number] ends in an integrity error that no handler code catches:
    it leaves [update_call] as an exception, not as a JSON payload with a
    status. The same null is caught and answered with status 500 by
    [initiate_call]. *)
Theorem update_call_null_escapes :
  serve (UpdateCall 1 None (Some "200")) three_calls = (inr IntegrityError, three_calls) /\
  serve (InitiateCall "2024-05-01T11:00:00" None (Some "200")) three_calls =
    (inl (Response input_not_valid 500), three_calls).
Proof.
  split; reflexivity.
Qed.

(** C4, as amended. [update_call] has no null check of its own, but the
    NOT NULL constraints of the table apply to updates as they do to
    inserts: for every store and every existing id, an update with a null
    [from_number] or a null [to_number] does not succeed and leaves the
    store unchanged, so no null is stored. *)
Theorem update_call_null_not_stored db i f t :
  In i (map id db) -> f = None \/ t = None ->
  is_success (fst (serve (UpdateCall i f t) db)) = false /\
  snd (serve (UpdateCall i f t) db) = db.
Proof.
  intros Hin Hnull. rewrite serve_update_call.
  destruct (in_int64 i); [|now split].
  destruct (find_where_id_present db i Hin) as [r [-> _]].
  rewrite (null_fails_constraint f t Hnull). now split.
Qed.

Lemma update_call_null_not_stored_witness :
  is_success (fst (serve (UpdateCall 2 (Some "300") None) three_calls)) = false /\
  snd (serve (UpdateCall 2 (Some "300") None) three_calls) = three_calls.
Proof.
  apply (update_call_null_not_stored three_calls 2 (Some "300") None).
  - vm_compute. tauto.
  - right. reflexivity.
Defined.

(** C4 fails as stated: there is no store, existing id and pair of values,
    one of them null, for which the update succeeds. *)
Lemma update_call_null_counterexample :
  ~ exists db i f t,
      In i (map id db) /\ (f = None \/ t = None) /\
      is_success (fst (serve (UpdateCall i f t) db)) = true.
Proof.
  intros (db & i & f & t & Hin & Hnull & Hok).
  rewrite serve_update_call in Hok.
  destruct (in_int64 i); [|discriminate].
  destruct (find_where_id_present db i Hin) as [r [Hfind _]].
  rewrite Hfind, (null_fails_constraint f t Hnull) in Hok.
  discriminate.
Qed.

(** C5. For every store and every id of an existing record, a successful
    update with [f] and [t] keeps every record at its place: the record
    with that id gets [from_number = f] and [to_number = t] and keeps its
    [id] and [start_time], and every other record is unchanged. *)
Theorem update_call_frame db i f t :
  In i (map id db) ->
  is_success (fst (serve (UpdateCall i f t) db)) = true ->
  List.length (snd (serve (UpdateCall i f t) db)) = List.length db /\
  forall n r, nth_error db n = Some r ->
    nth_error (snd (serve (UpdateCall i f t) db)) n =
      Some (if id r =? i then mkRow (id r) f t (start_time r) else r).
Proof.
  intros Hin Hok. rewrite serve_update_call in *.
  destruct (in_int64 i); [|discriminate].
  destruct (find_where_id_present db i Hin) as [r0 [Hfind _]].
  rewrite Hfind in *.
  destruct (not_null f && not_null t); [|discriminate].
  cbn [snd]. split.
  - apply length_map.
  - intros n r Hn. rewrite nth_error_map, Hn. reflexivity.
Qed.

Lemma update_call_frame_witness :
  snd (serve (UpdateCall 2 (Some "500") (Some "600")) three_calls) =
    [mkRow 1 (Some "100") (Some "200") (Some "2024-05-01T10:00:00");
     mkRow 2 (Some "500") (Some "600") (Some "2024-05-01T10:05:00");
     mkRow 3 (Some "300") (Some "400") (Some "2024-05-01T10:10:00");
     mkRow 4 (Some "100") (Some "400") (Some "2024-05-01T10:15:00")] /\
  nth_error (snd (serve (UpdateCall 2 (Some "500") (Some "600")) three_calls)) 1 =
    Some (mkRow 2 (Some "500") (Some "600") (Some "2024-05-01T10:05:00")).
Proof.
  split; [reflexivity|].
  destruct (update_call_frame three_calls 2 (Some "500") (Some "600")) as [_ H];
    [vm_compute; tauto | reflexivity | ].
  exact (H 1%nat (mkRow 2 (Some "300") (Some "100") (Some "2024-05-01T10:05:00")) eq_refl).
Defined.

(** C6, at the failing input. The id 2^63 is accepted by the route and
    references no record, but it does not fit the integer parameter of the
    SELECT: whatever the store, the update and the delete both end in an
    [OverflowError] that leaves the handler, not in the "Call not found"
    answer. The store is unchanged. *)
Theorem not_found_id_overflow db f t :
  serve (UpdateCall (2 ^ 63) f t) db = (inr OverflowError, db) /\
  serve (DeleteCall (2 ^ 63)) db = (inr OverflowError, db).
Proof.
  rewrite serve_update_call, serve_delete_call. split; reflexivity.
Qed.

(** ** Invariants of the store *)

Lemma max_rowid_bound t r : In r t -> exists m, max_rowid t = Some m /\ id r <= m.
Proof.
  induction t as [|a t IH]; intros H; [contradiction|].
  simpl. destruct H as [->|H].
  - destruct (max_rowid t) as [m|]; eexists; split; try reflexivity; lia.
  - destruct (IH H) as [m [-> Hm]]. eexists; split; [reflexivity | lia].
Qed.

Lemma max_rowid_member t m : max_rowid t = Some m -> exists r, In r t /\ id r = m.
Proof.
  revert m. induction t as [|a t IH]; intros m; simpl; [discriminate|].
  destruct (max_rowid t) as [m'|].
  - intros H. injection H as <-. destruct (IH m' eq_refl) as [r [Hr Hid]].
    destruct (Z.max_spec (id a) m') as [[_ ->] | [_ ->]].
    + exists r. split; [now right | assumption].
    + exists a. split; [now left | reflexivity].
  - intros H. injection H as <-. exists a. split; [now left | reflexivity].
Qed.

(** The rowid of an insert is larger than every rowid in use. *)
Lemma next_rowid_fresh t r : In r t -> id r < next_rowid t.
Proof.
  intros H. unfold next_rowid.
  destruct (max_rowid_bound t r H) as [m [-> Hm]]. lia.
Qed.

Lemma StronglySorted_snoc (l : list Z) x :
  StronglySorted Z.lt l -> (forall y, In y l -> y < x) ->
  StronglySorted Z.lt (l ++ [x]).
Proof.
  induction l as [|a l IH]; intros Hs Hlt; simpl.
  - repeat constructor.
  - apply StronglySorted_inv in Hs. destruct Hs as [Hs Ha].
    constructor.
    + apply IH; [assumption|]. intros y Hy. apply Hlt. now right.
    + apply Forall_app. split; [assumption|].
      constructor; [|constructor]. apply Hlt. now left.
Qed.

Lemma rowid_order_filter p db : rowid_order db -> rowid_order (filter p db).
Proof.
  unfold rowid_order. induction db as [|a db IH]; intros Hs; [assumption|].
  simpl in Hs. apply StronglySorted_inv in Hs. destruct Hs as [Hs Ha].
  simpl. destruct (p a); [|now apply IH].
  simpl. constructor; [now apply IH|].
  rewrite Forall_forall in *. intros y Hy.
  apply Ha. apply in_map_iff in Hy. destruct Hy as [r' [<- Hr]].
  apply in_map. apply filter_In in Hr. tauto.
Qed.

Lemma map_id_update i f t db :
  map id (map (fun r => if where_id i r then set_numbers f t r else r) db) = map id db.
Proof.
  rewrite map_map. apply map_ext. intros r. now destruct (where_id i r).
Qed.

Lemma rowid_order_unique db : rowid_order db -> NoDup (map id db).
Proof.
  unfold rowid_order. generalize (map id db). intros l.
  induction 1 as [|a l Hs IH Ha]; constructor; [|assumption].
  intros Hin. rewrite Forall_forall in Ha. specialize (Ha a Hin). lia.
Qed.

(** A listing never writes. *)
Lemma serve_call_report_store phone page size db :
  snd (serve (CallReport phone page size) db) = db.
Proof.
  destruct (falsy phone) eqn:E.
  - now rewrite serve_call_report_falsy.
  - destruct phone as [ph|]; [|discriminate].
    rewrite serve_call_report; [reflexivity|].
    intros ->. discriminate.
Qed.

(** Every request keeps the rows in ascending rowid order, a create adding
    its row last: the order of the store is the order of insertion. *)
Lemma serve_rowid_order rq db : rowid_order db -> rowid_order (snd (serve rq db)).
Proof.
  intros H. destruct rq as [now f t|phone page size|i f t|i].
  - rewrite serve_initiate_call.
    destruct (not_null f && not_null t); [|assumption].
    cbn [snd]. unfold rowid_order. rewrite map_app. cbn [map id].
    apply StronglySorted_snoc; [assumption|].
    intros y Hy. apply in_map_iff in Hy. destruct Hy as [r [<- Hr]].
    now apply next_rowid_fresh.
  - now rewrite serve_call_report_store.
  - rewrite serve_update_call.
    destruct (in_int64 i); [|assumption].
    destruct (find (where_id i) db) as [found|]; [|assumption].
    destruct (not_null f && not_null t); [|assumption].
    cbn [snd]. unfold rowid_order. now rewrite map_id_update.
  - rewrite serve_delete_call.
    destruct (in_int64 i); [|assumption].
    destruct (find (where_id i) db) as [found|]; [|assumption].
    cbn [snd]. now apply rowid_order_filter.
Qed.

(** Every request keeps the NOT NULL constraints of the table. *)
Lemma serve_not_null rq db :
  Forall (fun r => row_not_null r = true) db ->
  Forall (fun r => row_not_null r = true) (snd (serve rq db)).
Proof.
  intros H. destruct rq as [now f t|phone page size|i f t|i].
  - rewrite serve_initiate_call.
    destruct (not_null f && not_null t) eqn:E; [|assumption].
    cbn [snd]. apply Forall_app. split; [assumption|].
    constructor; [|constructor].
    unfold row_not_null. cbn. now rewrite E.
  - now rewrite serve_call_report_store.
  - rewrite serve_update_call.
    destruct (in_int64 i); [|assumption].
    destruct (find (where_id i) db) as [found|]; [|assumption].
    destruct (not_null f && not_null t) eqn:E; [|assumption].
    cbn [snd]. rewrite Forall_forall in *. intros r Hr.
    apply in_map_iff in Hr. destruct Hr as [r0 [<- Hr0]].
    specialize (H r0 Hr0). destruct (where_id i r0); [|assumption].
    unfold row_not_null, set_numbers in *. cbn.
    rewrite E. apply andb_true_iff in H. now destruct H as [_ ->].
  - rewrite serve_delete_call.
    destruct (in_int64 i); [|assumption].
    destruct (find (where_id i) db) as [found|]; [|assumption].
    cbn [snd]. rewrite Forall_forall in *. intros r Hr.
    apply filter_In in Hr. now apply H.
Qed.

Lemma run_invariant (P : table -> Prop) :
  (forall rq db, P db -> P (snd (serve rq db))) ->
  forall rqs db, P db -> P (run rqs db).
Proof.
  intros Hstep rqs. induction rqs as [|rq rqs IH]; intros db H; [assumption|].
  simpl. apply IH, Hstep, H.
Qed.

(** A create gives the next id after the largest, so after [n] requests
    from the empty table no id is above [n]. *)
Lemma serve_ids_upto rq db n :
  0 <= n ->
  Forall (fun r => 1 <= id r <= n) db ->
  Forall (fun r => 1 <= id r <= n + 1) (snd (serve rq db)).
Proof.
  intros Hn H. rewrite Forall_forall in *.
  assert (Hold : forall r, In r db -> 1 <= id r <= n + 1)
    by (intros r Hr; specialize (H r Hr); lia).
  intros r' Hin.
  destruct rq as [now f t|phone page size|i f t|i].
  - rewrite serve_initiate_call in Hin.
    destruct (not_null f && not_null t); cbn [snd] in Hin; [|now apply Hold].
    apply in_app_or in Hin. destruct Hin as [Hin|[<-|[]]]; [now apply Hold|].
    cbn [id]. unfold next_rowid.
    destruct (max_rowid db) as [m|] eqn:Hmax.
    + destruct (max_rowid_member db m Hmax) as [r [Hr <-]].
      specialize (H r Hr). lia.
    + lia.
  - rewrite serve_call_report_store in Hin. now apply Hold.
  - rewrite serve_update_call in Hin.
    destruct (in_int64 i); [|now apply Hold].
    destruct (find (where_id i) db) as [r0|]; [|now apply Hold].
    destruct (not_null f && not_null t); cbn [snd] in Hin; [|now apply Hold].
    apply in_map_iff in Hin. destruct Hin as [r [<- Hr]].
    specialize (Hold r Hr). now destruct (where_id i r).
  - rewrite serve_delete_call in Hin.
    destruct (in_int64 i); [|now apply Hold].
    destruct (find (where_id i) db) as [r0|]; cbn [snd] in Hin; [|now apply Hold].
    apply filter_In in Hin. now apply Hold.
Qed.

Lemma run_ids_upto rqs : forall db n,
  0 <= n ->
  Forall (fun r => 1 <= id r <= n) db ->
  Forall (fun r => 1 <= id r <= n + Z.of_nat (List.length rqs)) (run rqs db).
Proof.
  induction rqs as [|rq rqs IH]; intros db n Hn H.
  - simpl. rewrite Z.add_0_r. exact H.
  - simpl run. apply (serve_ids_upto rq db n Hn) in H.
    apply IH in H; [|lia].
    replace (n + Z.of_nat (List.length (rq :: rqs)))
      with (n + 1 + Z.of_nat (List.length rqs)) by (simpl List.length; lia).
    exact H.
Qed.

(** Whatever the requests served since the table was created, fewer than
    2^63 of them, the ids are unique 64-bit integers in ascending order;
    and no column holds a NULL. *)
Lemma run_primary_key rqs :
  Z.of_nat (List.length rqs) < 2 ^ 63 -> primary_key (run rqs []).
Proof.
  intros Hlen. split.
  - apply rowid_order_unique.
    apply (run_invariant rowid_order serve_rowid_order). constructor.
  - pose proof (run_ids_upto rqs [] 0 (Z.le_refl 0) (Forall_nil _)) as H.
    rewrite Forall_forall in *. intros r Hr. specialize (H r Hr).
    unfold in_int64. apply andb_true_iff.
    split; [apply Z.leb_le | apply Z.ltb_lt]; lia.
Qed.

Lemma run_not_null rqs : Forall (fun r => row_not_null r = true) (run rqs []).
Proof.
  apply (run_invariant _ serve_not_null). constructor.
Qed.

Lemma row_not_null_numbers r :
  row_not_null r = true -> from_number r <> None /\ to_number r <> None.
Proof.
  unfold row_not_null. destruct (from_number r), (to_number r); simpl;
    intros H; try discriminate; split; discriminate.
Qed.

(** ** Deletion: claim C7 *)

Lemma filter_keep_all {A} (p : A -> bool) l :
  (forall x, In x l -> p x = true) -> filter p l = l.
Proof.
  induction l as [|a l IH]; intros H; [reflexivity|].
  simpl. rewrite (H a) by now left.
  f_equal. apply IH. intros x Hx. apply H. now right.
Qed.

(** When ids are unique, deleting by id takes exactly one row out. *)
Lemma delete_one_row l1 r l2 :
  NoDup (map id (l1 ++ r :: l2)) ->
  filter (fun x => negb (where_id (id r) x)) (l1 ++ r :: l2) = l1 ++ l2.
Proof.
  rewrite map_app. cbn [map]. intros Hnd.
  apply NoDup_remove_2 in Hnd.
  assert (Hother : forall x, In x (l1 ++ l2) -> negb (where_id (id r) x) = true).
  { intros x Hx. unfold where_id. destruct (Z.eqb_spec (id x) (id r)) as [E|E]; [|reflexivity].
    exfalso. apply Hnd. rewrite <- E, <- map_app. now apply in_map. }
  rewrite filter_app. cbn [filter]. unfold where_id at 2. rewrite Z.eqb_refl. cbn [negb].
  rewrite !filter_keep_all; [reflexivity| |];
    intros x Hx; apply Hother, in_or_app; tauto.
Qed.

(** The calls a listing reports are calls of the store. *)
Lemma reported_calls_stored phone page size db calls st :
  fst (serve (CallReport phone page size) db) = inl (Response (call_data calls) st) ->
  forall d, In d calls -> exists r, d = call_dict r /\ In r db.
Proof.
  intros Hout d Hd.
  destruct (falsy phone) eqn:E.
  - rewrite serve_call_report_falsy in Hout by assumption. discriminate.
  - destruct phone as [ph|]; [|discriminate].
    rewrite serve_call_report in Hout by (intros ->; discriminate).
    cbn [fst] in Hout.
    destruct (py_slice _ _ _) as [|r0 rows] eqn:Hslice; [discriminate|].
    cbn [listing_response] in Hout. injection Hout as Hcalls _. subst calls.
    change (In d (map call_dict (r0 :: rows))) in Hd.
    apply in_map_iff in Hd. destruct Hd as [r [<- Hr]].
    exists r. split; [reflexivity|].
    rewrite <- Hslice in Hr. apply In_py_slice in Hr.
    unfold spec_matches in Hr. apply filter_In in Hr. tauto.
Qed.

(** C7. For every store (a table under its primary key: ids are unique
    64-bit integers) and every id of an existing record, the delete
    succeeds and takes exactly that record out, the others staying in
    place; after it, whatever the phone, page and page size, every call a
    listing reports is a record of the store with another id. *)
Theorem delete_call_removes db i :
  primary_key db -> In i (map id db) ->
  exists l1 r l2,
    db = l1 ++ r :: l2 /\ id r = i /\
    serve (DeleteCall i) db = (inl (Response call_record_deleted 200), l1 ++ l2) /\
    forall phone page size calls st,
      fst (serve (CallReport phone page size) (l1 ++ l2)) =
        inl (Response (call_data calls) st) ->
      forall d, In d calls ->
        exists r', d = call_dict r' /\ In r' (l1 ++ l2) /\ id r' <> i.
Proof.
  intros [Hkey Hrange] Hin.
  apply in_map_iff in Hin. destruct Hin as [r [Hid Hr]].
  assert (Hfits : in_int64 i = true).
  { rewrite Forall_forall in Hrange. rewrite <- Hid. now apply Hrange. }
  destruct (in_split r db Hr) as [l1 [l2 Hdb]]. subst db.
  exists l1, r, l2. split; [reflexivity|]. split; [assumption|].
  assert (Hgone : forall x, In x (l1 ++ l2) -> id x <> i).
  { intros x Hx E. pose proof Hkey as Hnd.
    rewrite map_app in Hnd. cbn [map] in Hnd.
    apply NoDup_remove_2 in Hnd. apply Hnd.
    rewrite <- map_app, Hid, <- E. now apply in_map. }
  split.
  - rewrite serve_delete_call, Hfits.
    destruct (find_where_id_present (l1 ++ r :: l2) i) as [r1 [-> _]].
    { rewrite <- Hid. now apply in_map. }
    rewrite <- Hid, delete_one_row by assumption. reflexivity.
  - intros phone page size calls st Hout d Hd.
    destruct (reported_calls_stored _ _ _ _ _ _ Hout d Hd) as [r' [Hd' Hr']].
    exists r'. repeat split; try assumption. now apply Hgone.
Qed.

Lemma delete_call_removes_witness :
  exists l1 r l2,
    three_calls = l1 ++ r :: l2 /\ id r = 2 /\
    serve (DeleteCall 2) three_calls =
      (inl (Response call_record_deleted 200), l1 ++ l2) /\
    forall phone page size calls st,
      fst (serve (CallReport phone page size) (l1 ++ l2)) =
        inl (Response (call_data calls) st) ->
      forall d, In d calls ->
        exists r', d = call_dict r' /\ In r' (l1 ++ l2) /\ id r' <> 2.
Proof.
  apply (delete_call_removes three_calls 2).
  - split.
    + vm_compute. repeat (constructor; [simpl; intuition discriminate|]). constructor.
    + cbv -[in_int64]. repeat constructor.
  - vm_compute. tauto.
Defined.

(** ** What a create admits: claim C8 *)

(** C8, as amended. In every store the handlers can build, a successful
    create was given a non-null [from_number] and a non-null [to_number]
    and adds one record holding them, and every record of the store after
    it has a non-null [from_number] and a non-null [to_number]. The empty
    string is not null: it is admitted. *)
Theorem stored_numbers_not_null rqs now f t :
  is_success (fst (serve (InitiateCall now f t) (run rqs []))) = true ->
  (exists a b, f = Some a /\ t = Some b /\
     snd (serve (InitiateCall now f t) (run rqs [])) =
       run rqs [] ++ [mkRow (next_rowid (run rqs [])) (Some a) (Some b) (Some now)]) /\
  forall r, In r (snd (serve (InitiateCall now f t) (run rqs []))) ->
    from_number r <> None /\ to_number r <> None.
Proof.
  intros Hok. split.
  - rewrite serve_initiate_call in *.
    destruct f as [a|], t as [b|]; try discriminate.
    exists a, b. repeat split.
  - intros r Hr. apply row_not_null_numbers.
    pose proof (serve_not_null (InitiateCall now f t) _ (run_not_null rqs)) as Hall.
    rewrite Forall_forall in Hall. now apply Hall.
Qed.

Lemma stored_numbers_not_null_witness :
  snd (serve (InitiateCall "2024-05-01T12:00:00" (Some "") (Some "700"))
         (run [InitiateCall "2024-05-01T10:00:00" (Some "100") (Some "200");
               UpdateCall 1 (Some "300") (Some "200")] [])) =
    [mkRow 1 (Some "300") (Some "200") (Some "2024-05-01T10:00:00");
     mkRow 2 (Some "") (Some "700") (Some "2024-05-01T12:00:00")] /\
  forall r,
    In r (snd (serve (InitiateCall "2024-05-01T12:00:00" (Some "") (Some "700"))
                (run [InitiateCall "2024-05-01T10:00:00" (Some "100") (Some "200");
                      UpdateCall 1 (Some "300") (Some "200")] []))) ->
    from_number r <> None /\ to_number r <> None.
Proof.
  split; [reflexivity|].
  apply (stored_numbers_not_null
           [InitiateCall "2024-05-01T10:00:00" (Some "100") (Some "200");
            UpdateCall 1 (Some "300") (Some "200")]
           "2024-05-01T12:00:00" (Some "") (Some "700")).
  reflexivity.
Defined.

(** C8 fails as stated: a create with the empty string for both numbers
    succeeds, and the row it persists has an empty [from_number] and an
    empty [to_number]. *)
Lemma initiate_call_empty_number_counterexample :
  serve (InitiateCall "2024-05-01T10:00:00" (Some "") (Some "")) [] =
    (inl (Response success_true 200),
     [mkRow 1 (Some "") (Some "") (Some "2024-05-01T10:00:00")]).
Proof.
  reflexivity.
Qed.

(** * Further properties of the handlers *)

(** ** What a listing answers, in general *)

Lemma is_phone_eq phone v : is_phone phone v = true -> v = Some phone.
Proof.
  destruct v as [s|]; simpl; [|discriminate].
  intros H. apply String.eqb_eq in H. now subst.
Qed.

Lemma falsy_false phone : falsy phone = false -> exists ph, phone = Some ph /\ ph <> "".
Proof.
  destruct phone as [ph|]; simpl; [|discriminate].
  intros H. exists ph. split; [reflexivity|]. now apply String.eqb_neq.
Qed.

(** A listing that answers with data was given a phone, answers 200, and
    its data is the page of the matching rows. *)
Lemma call_report_data phone page size db calls st :
  fst (serve (CallReport phone page size) db) = inl (Response (call_data calls) st) ->
  exists ph,
    phone = Some ph /\ ph <> "" /\ st = 200 /\
    calls = map call_dict
              (page_rows (spec_matches ph db) (arg_default 1 page) (arg_default 10 size)).
Proof.
  intros Hout. destruct (falsy phone) eqn:E.
  - rewrite serve_call_report_falsy in Hout by assumption. discriminate.
  - destruct (falsy_false phone E) as [ph [-> Hne]].
    exists ph. rewrite serve_call_report in Hout by assumption.
    cbn [fst] in Hout. fold (page_rows (spec_matches ph db) (arg_default 1 page)
                               (arg_default 10 size)) in Hout.
    destruct (page_rows _ _ _) as [|r0 rows]; [discriminate|].
    cbn [listing_response] in Hout. injection Hout as Hcalls Hst.
    subst calls st. repeat split. assumption.
Qed.

Lemma py_slice_contiguous {A} (l : list A) start stop :
  exists pre post, l = pre ++ py_slice l start stop ++ post.
Proof.
  unfold py_slice.
  set (lo := Z.to_nat (slice_bound _ start)).
  set (m := Z.to_nat (_ - _)).
  exists (firstn lo l), (skipn m (skipn lo l)).
  now rewrite (firstn_skipn m), (firstn_skipn lo).
Qed.

Lemma py_slice_length {A} (l : list A) s k :
  0 <= k -> Z.of_nat (List.length (py_slice l s (s + k))) <= k.
Proof.
  intros Hk. unfold py_slice, slice_bound. rewrite length_firstn.
  destruct (s <? 0) eqn:E1, (s + k <? 0) eqn:E2; lia.
Qed.

Lemma page_rows_full {A} (l : list A) k :
  1 <= k -> Z.of_nat (List.length l) <= k -> page_rows l 1 k = l.
Proof.
  intros Hk Hlen. unfold page_rows. rewrite py_slice_window by lia.
  unfold spec_window. replace (Z.to_nat ((1 - 1) * k)) with 0%nat by lia.
  cbn [skipn]. apply firstn_all2. lia.
Qed.

Lemma firstn_plus {A} (l : list A) a b :
  firstn (a + b) l = firstn a l ++ firstn b (skipn a l).
Proof.
  revert l. induction a as [|a IH]; intros l; [reflexivity|].
  destruct l as [|x l]; simpl.
  - now rewrite firstn_nil.
  - now rewrite IH.
Qed.

Lemma skipn_nil_length {A} (l : list A) n : skipn n l = [] -> (List.length l <= n)%nat.
Proof.
  intros H. apply (f_equal (@List.length A)) in H.
  rewrite length_skipn in H. simpl in H. lia.
Qed.

Lemma spec_window_empty {A} (l : list A) p k :
  1 <= p -> 1 <= k -> spec_window l p k = [] ->
  Z.of_nat (List.length l) <= (p - 1) * k.
Proof.
  intros Hp Hk H. unfold spec_window in H.
  destruct (skipn (Z.to_nat ((p - 1) * k)) l) as [|x rest] eqn:Hskip.
  - apply skipn_nil_length in Hskip. nia.
  - destruct (Z.to_nat k) eqn:Ek; [lia | discriminate].
Qed.

Lemma listing_response_failure rows :
  listing_response rows = Response phone_not_valid 500 -> rows = [].
Proof.
  destruct rows; [reflexivity | discriminate].
Qed.

(** X1. Without a phone, or with the empty string for one, the listing
    answers the missing-phone payload with status 500 whatever the page
    and the page size, and writes nothing. *)
Theorem get_call_report_missing_phone db page size :
  serve (CallReport None page size) db = (inl (Response provide_phone 500), db) /\
  serve (CallReport (Some "") page size) db = (inl (Response provide_phone 500), db).
Proof.
  split; now apply serve_call_report_falsy.
Qed.

(** X2. With no page and no page size given, the listing reports the
    first ten matching records, in the order of the store. *)
Theorem get_call_report_defaults db phone :
  phone <> "" ->
  serve (CallReport (Some phone) None None) db =
    (inl (listing_response (firstn 10 (spec_matches phone db))), db).
Proof.
  intros Hne. rewrite serve_call_report by assumption.
  cbn [arg_default]. rewrite py_slice_window by lia. reflexivity.
Qed.

Lemma get_call_report_defaults_witness :
  serve (CallReport (Some "100") None None) three_calls =
    (inl (listing_response (firstn 10 (spec_matches "100" three_calls))), three_calls).
Proof.
  apply (get_call_report_defaults three_calls "100"). discriminate.
Defined.

(** X3. Whatever the page and the page size, negative ones included, every
    call a listing reports is a record of the store whose [from_number] or
    [to_number] is the phone asked for. *)
Theorem reported_calls_involve_phone phone page size db calls st :
  fst (serve (CallReport phone page size) db) = inl (Response (call_data calls) st) ->
  forall d, In d calls ->
    exists ph r, phone = Some ph /\ d = call_dict r /\ In r db /\
                 (from_number r = Some ph \/ to_number r = Some ph).
Proof.
  intros Hout d Hd.
  destruct (call_report_data _ _ _ _ _ _ Hout) as (ph & -> & _ & _ & ->).
  apply in_map_iff in Hd. destruct Hd as [r [<- Hr]].
  apply In_py_slice in Hr. apply filter_In in Hr. destruct Hr as [Hr Hm].
  exists ph, r. repeat split; try assumption.
  apply orb_true_iff in Hm. destruct Hm as [Hm|Hm]; [left|right]; now apply is_phone_eq.
Qed.

Lemma reported_calls_involve_phone_witness :
  exists ph r,
    Some "100" = Some ph /\
    call_dict (mkRow 2 (Some "300") (Some "100") (Some "2024-05-01T10:05:00")) =
      call_dict r /\
    In r three_calls /\
    (from_number r = Some ph \/ to_number r = Some ph).
Proof.
  apply (reported_calls_involve_phone (Some "100") (Some 2) (Some 1) three_calls
           [call_dict (mkRow 2 (Some "300") (Some "100") (Some "2024-05-01T10:05:00"))]
           200).
  - reflexivity.
  - left. reflexivity.
Defined.

(** X4. Whatever the page and the page size, the calls a listing reports
    are one contiguous run of the matching records, in their order: some
    matching records before, the reported ones, the rest after. *)
Theorem reported_calls_contiguous phone page size db calls st :
  fst (serve (CallReport phone page size) db) = inl (Response (call_data calls) st) ->
  exists ph pre rows post,
    phone = Some ph /\ spec_matches ph db = pre ++ rows ++ post /\
    calls = map call_dict rows.
Proof.
  intros Hout.
  destruct (call_report_data _ _ _ _ _ _ Hout) as (ph & -> & _ & _ & ->).
  unfold page_rows.
  destruct (py_slice_contiguous (spec_matches ph db)
              ((arg_default 1 page - 1) * arg_default 10 size)
              ((arg_default 1 page - 1) * arg_default 10 size + arg_default 10 size))
    as (pre & post & Hsplit).
  eexists ph, pre, _, post. repeat split. exact Hsplit.
Qed.

Lemma reported_calls_contiguous_witness :
  exists ph pre rows post,
    Some "100" = Some ph /\ spec_matches ph three_calls = pre ++ rows ++ post /\
    [call_dict (mkRow 2 (Some "300") (Some "100") (Some "2024-05-01T10:05:00"))] =
      map call_dict rows.
Proof.
  apply (reported_calls_contiguous (Some "100") (Some 2) (Some 1) three_calls _ 200).
  reflexivity.
Defined.

(** X5. With a page size of 0 or more, a listing that answers with data
    reports at least one call and never more than the page size, whatever
    the page; so with a page size of 0 it never answers with data. *)
Theorem reported_calls_at_most_page_size phone page size db calls st :
  0 <= arg_default 10 size ->
  fst (serve (CallReport phone page size) db) = inl (Response (call_data calls) st) ->
  1 <= Z.of_nat (List.length calls) <= arg_default 10 size.
Proof.
  intros Hk Hout.
  destruct (call_report_data _ _ _ _ _ _ Hout) as (ph & -> & Hne & _ & ->).
  rewrite length_map. split.
  - rewrite serve_call_report in Hout by assumption. cbn [fst] in Hout.
    unfold page_rows. destruct (py_slice _ _ _); [discriminate | simpl; lia].
  - unfold page_rows. now apply py_slice_length.
Qed.

Lemma reported_calls_at_most_page_size_witness :
  1 <= Z.of_nat (List.length
                   [call_dict (mkRow 1 (Some "100") (Some "200") (Some "2024-05-01T10:00:00"));
                    call_dict (mkRow 2 (Some "300") (Some "100") (Some "2024-05-01T10:05:00"))])
    <= arg_default 10 (Some 2).
Proof.
  apply (reported_calls_at_most_page_size (Some "100") (Some 1) (Some 2) three_calls _ 200).
  - cbn. lia.
  - reflexivity.
Defined.

Lemma py_slice_drop_last {A} (l : list A) k :
  1 <= k ->
  py_slice l ((1 - 1) * - k) ((1 - 1) * - k + - k) =
    firstn (List.length l - Z.to_nat k) l.
Proof.
  intros Hk. unfold py_slice, slice_bound.
  replace ((1 - 1) * - k + - k) with (- k) by lia.
  replace ((1 - 1) * - k) with 0 by lia.
  change (0 <? 0) with false. cbv iota.
  destruct (- k <? 0) eqn:E; [|lia].
  replace (Z.to_nat (Z.min 0 _)) with 0%nat by lia. cbn [skipn].
  f_equal. lia.
Qed.

(** X6. A negative page size is not rejected: on page 1 with page size
    [-k], the listing reports every matching record except the last [k]
    (the slice is [rows[0:-k]]), and the failure payload when none is
    left. *)
Theorem get_call_report_negative_page_size db phone k :
  phone <> "" -> 1 <= k ->
  serve (CallReport (Some phone) (Some 1) (Some (- k))) db =
    (inl (listing_response
            (firstn (List.length (spec_matches phone db) - Z.to_nat k)
                    (spec_matches phone db))), db).
Proof.
  intros Hne Hk. rewrite serve_call_report by assumption.
  cbn [arg_default]. now rewrite py_slice_drop_last.
Qed.

Lemma get_call_report_negative_page_size_witness :
  serve (CallReport (Some "100") (Some 1) (Some (- 1))) three_calls =
    (inl (Response
            (call_data
               [call_dict (mkRow 1 (Some "100") (Some "200") (Some "2024-05-01T10:00:00"));
                call_dict (mkRow 2 (Some "300") (Some "100") (Some "2024-05-01T10:05:00"))])
            200),
     three_calls).
Proof.
  apply (get_call_report_negative_page_size three_calls "100" 1); [discriminate | lia].
Defined.

Lemma pages_upto_firstn {A} (l : list A) k n :
  1 <= k -> pages_upto l k n = firstn (n * Z.to_nat k) l.
Proof.
  intros Hk. unfold pages_upto. induction n as [|n IH]; [reflexivity|].
  rewrite seq_S, flat_map_app, IH. cbn [flat_map]. rewrite app_nil_r.
  unfold page_rows. rewrite py_slice_window by lia.
  unfold spec_window.
  replace (Z.to_nat ((Z.of_nat (1 + n) - 1) * k)) with (n * Z.to_nat k)%nat by nia.
  rewrite <- firstn_plus. f_equal. lia.
Qed.

(** X7. Paging loses and repeats nothing: for a page size [k >= 1], the
    rows of pages 1 to [n], one after the other, are the first [n * k]
    matching records, and all of them once [n * k] reaches their number;
    each page the listing answers is that page of the matching records. *)
Theorem pages_cover_matches db phone k n :
  phone <> "" -> 1 <= k ->
  Z.of_nat (List.length (spec_matches phone db)) <= Z.of_nat n * k ->
  pages_upto (spec_matches phone db) k n = spec_matches phone db /\
  forall p,
    serve (CallReport (Some phone) (Some p) (Some k)) db =
      (inl (listing_response (page_rows (spec_matches phone db) p k)), db).
Proof.
  intros Hne Hk Hlen. split.
  - rewrite pages_upto_firstn by assumption. apply firstn_all2. nia.
  - intros p. now rewrite serve_call_report.
Qed.

Lemma pages_cover_matches_witness :
  pages_upto (spec_matches "100" three_calls) 2 2 = spec_matches "100" three_calls /\
  forall p,
    serve (CallReport (Some "100") (Some p) (Some 2)) three_calls =
      (inl (listing_response (page_rows (spec_matches "100" three_calls) p 2)), three_calls).
Proof.
  apply (pages_cover_matches three_calls "100" 2 2);
    [discriminate | lia | vm_compute; discriminate].
Defined.

(** X8. The failure answer marks the end of the data: for a page size
    [k >= 1], once page [p >= 1] is answered with the failure payload,
    every later page is too. *)
Theorem get_call_report_end_of_data db phone p q k :
  phone <> "" -> 1 <= k -> 1 <= p -> p <= q ->
  fst (serve (CallReport (Some phone) (Some p) (Some k)) db) =
    inl (Response phone_not_valid 500) ->
  serve (CallReport (Some phone) (Some q) (Some k)) db =
    (inl (Response phone_not_valid 500), db).
Proof.
  intros Hne Hk Hp Hpq Hfail.
  rewrite serve_call_report in * by assumption. cbn [arg_default fst] in *.
  rewrite py_slice_window in * by lia.
  injection Hfail as Hfail. apply listing_response_failure in Hfail.
  apply spec_window_empty in Hfail; [|lia|lia].
  rewrite spec_window_beyond by nia. reflexivity.
Qed.

Lemma get_call_report_end_of_data_witness :
  serve (CallReport (Some "100") (Some 5) (Some 2)) three_calls =
    (inl (Response phone_not_valid 500), three_calls).
Proof.
  apply (get_call_report_end_of_data three_calls "100" 3 5 2);
    [discriminate | lia | lia | lia | reflexivity].
Defined.

Lemma StronglySorted_app_inv {A} (R : A -> A -> Prop) l1 l2 :
  StronglySorted R (l1 ++ l2) -> StronglySorted R l1 /\ StronglySorted R l2.
Proof.
  induction l1 as [|a l1 IH]; simpl; intros H.
  - split; [constructor | assumption].
  - apply StronglySorted_inv in H. destruct H as [Hs Ha].
    destruct (IH Hs) as [H1 H2]. split; [|assumption].
    constructor; [assumption|].
    apply Forall_app in Ha. tauto.
Qed.

(** X9. In a store whose rows are in ascending id order (every store the
    handlers build), the calls of a listing come in strictly ascending id
    order, so no call is reported twice in one answer. *)
Theorem reported_calls_ascending phone page size db calls st :
  rowid_order db ->
  fst (serve (CallReport phone page size) db) = inl (Response (call_data calls) st) ->
  exists rows, calls = map call_dict rows /\ StronglySorted Z.lt (map id rows).
Proof.
  intros Horder Hout.
  destruct (call_report_data _ _ _ _ _ _ Hout) as (ph & -> & _ & _ & ->).
  eexists. split; [reflexivity|].
  unfold page_rows.
  destruct (py_slice_contiguous (spec_matches ph db)
              ((arg_default 1 page - 1) * arg_default 10 size)
              ((arg_default 1 page - 1) * arg_default 10 size + arg_default 10 size))
    as (pre & post & Hsplit).
  pose proof (rowid_order_filter
                (fun r => is_phone ph (from_number r) || is_phone ph (to_number r))
                db Horder) as Hsorted.
  fold (spec_matches ph db) in Hsorted. unfold rowid_order in Hsorted.
  rewrite Hsplit, !map_app in Hsorted.
  apply StronglySorted_app_inv in Hsorted. destruct Hsorted as [_ Hsorted].
  apply StronglySorted_app_inv in Hsorted. tauto.
Qed.

Lemma reported_calls_ascending_witness :
  exists rows,
    [call_dict (mkRow 1 (Some "100") (Some "200") (Some "2024-05-01T10:00:00"));
     call_dict (mkRow 2 (Some "300") (Some "100") (Some "2024-05-01T10:05:00"))] =
      map call_dict rows /\
    StronglySorted Z.lt (map id rows).
Proof.
  apply (reported_calls_ascending (Some "100") (Some 1) (Some 2) three_calls _ 200).
  - unfold rowid_order. vm_compute. repeat constructor.
  - reflexivity.
Defined.

(** ** Creating, updating and deleting, in general *)

Lemma serve_call_report_page phone page size db :
  phone <> "" ->
  serve (CallReport (Some phone) page size) db =
    (inl (listing_response
            (page_rows (spec_matches phone db) (arg_default 1 page) (arg_default 10 size))),
     db).
Proof.
  exact (serve_call_report phone page size db).
Qed.

Lemma find_where_id_In db i r : find (where_id i) db = Some r -> In i (map id db).
Proof.
  intros H. apply find_some in H. destruct H as [Hin Hid].
  unfold where_id in Hid. apply Z.eqb_eq in Hid. subst i. now apply in_map.
Qed.

Lemma not_null_both (f t : value) :
  not_null f && not_null t = true <-> f <> None /\ t <> None.
Proof.
  destruct f, t; simpl; split; intros H; try discriminate; try reflexivity;
    try (split; discriminate); destruct H as [H1 H2]; congruence.
Qed.

Lemma spec_matches_app phone l1 l2 :
  spec_matches phone (l1 ++ l2) = spec_matches phone l1 ++ spec_matches phone l2.
Proof.
  apply filter_app.
Qed.

Lemma is_phone_either phone a b :
  phone = a \/ phone = b -> is_phone phone (Some a) || is_phone phone (Some b) = true.
Proof.
  intros [-> | ->]; simpl; rewrite String.eqb_refl; [reflexivity | apply orb_true_r].
Qed.

(** A phone with matching records, asked for page 1 with a page size that
    holds them all, is answered with all of them. *)
Lemma serve_call_report_all phone k db r :
  phone <> "" -> In r (spec_matches phone db) ->
  Z.of_nat (List.length (spec_matches phone db)) <= k ->
  serve (CallReport (Some phone) (Some 1) (Some k)) db =
    (inl (Response (call_data (map call_dict (spec_matches phone db))) 200), db).
Proof.
  intros Hne Hin Hlen. rewrite serve_call_report_page by assumption.
  cbn [arg_default].
  destruct (spec_matches phone db) as [|r0 rows] eqn:E; [contradiction|].
  rewrite page_rows_full; [reflexivity | simpl in Hlen; lia | assumption].
Qed.

Lemma find_after_delete db i :
  find (where_id i) (filter (fun r => negb (where_id i r)) db) = None.
Proof.
  apply find_where_id_absent. intros Hin.
  apply in_map_iff in Hin. destruct Hin as [r [Hid Hr]].
  apply filter_In in Hr. destruct Hr as [_ Hr].
  unfold where_id in Hr. rewrite Hid, Z.eqb_refl in Hr. discriminate.
Qed.

(** X10. Whenever a create succeeds, it has added exactly one record after
    all the others, with the two numbers and the creation time of the
    request, and with an id larger than every id that was in the store. *)
Theorem initiate_call_appends db now f t :
  is_success (fst (serve (InitiateCall now f t) db)) = true ->
  snd (serve (InitiateCall now f t) db) =
    db ++ [mkRow (next_rowid db) f t (Some now)] /\
  forall r, In r db -> id r < next_rowid db.
Proof.
  intros Hok. split.
  - rewrite serve_initiate_call in *.
    destruct (not_null f && not_null t); [reflexivity | discriminate].
  - intros r. apply next_rowid_fresh.
Qed.

(** X11. A created call is listed: after a create with numbers [a] and [b],
    the listing for either of them (if not empty), page 1 and a page size
    above the number of records that matched before, answers with those
    records followed by the new one. *)
Theorem created_call_listed db now a b phone k :
  phone <> "" -> phone = a \/ phone = b ->
  Z.of_nat (List.length (spec_matches phone db)) < k ->
  serve (CallReport (Some phone) (Some 1) (Some k))
        (snd (serve (InitiateCall now (Some a) (Some b)) db)) =
    (inl (Response
            (call_data
               (map call_dict
                  (spec_matches phone db ++
                   [mkRow (next_rowid db) (Some a) (Some b) (Some now)]))) 200),
     db ++ [mkRow (next_rowid db) (Some a) (Some b) (Some now)]).
Proof.
  intros Hne Hph Hlen. rewrite serve_initiate_call. cbn [not_null andb snd].
  set (new := mkRow (next_rowid db) (Some a) (Some b) (Some now)).
  assert (Hm : spec_matches phone (db ++ [new]) = spec_matches phone db ++ [new]).
  { rewrite spec_matches_app. f_equal. unfold spec_matches. cbn [filter].
    subst new. cbn [from_number to_number]. now rewrite is_phone_either. }
  rewrite (serve_call_report_all phone k (db ++ [new]) new); rewrite ?Hm.
  - reflexivity.
  - assumption.
  - apply in_or_app. right. now left.
  - rewrite length_app. simpl. lia.
Qed.

Lemma created_call_listed_witness :
  serve (CallReport (Some "400") (Some 1) (Some 5))
        (snd (serve (InitiateCall "2024-05-01T12:00:00" (Some "900") (Some "400"))
                    three_calls)) =
    (inl (Response
            (call_data
               (map call_dict
                  (spec_matches "400" three_calls ++
                   [mkRow (next_rowid three_calls) (Some "900") (Some "400")
                          (Some "2024-05-01T12:00:00")]))) 200),
     three_calls ++ [mkRow (next_rowid three_calls) (Some "900") (Some "400")
                           (Some "2024-05-01T12:00:00")]).
Proof.
  apply (created_call_listed three_calls "2024-05-01T12:00:00" "900" "400" "400" 5);
    [discriminate | right; reflexivity | vm_compute; reflexivity].
Defined.

(** X12. What a success needs: a create answers 200 only when both numbers
    are non-null; an update only when a record has the id, the id fits 64
    bits and both numbers are non-null; a delete exactly when a record has
    the id and the id fits 64 bits. *)
Theorem success_conditions db now i f t :
  (is_success (fst (serve (InitiateCall now f t) db)) = true ->
     f <> None /\ t <> None) /\
  (is_success (fst (serve (UpdateCall i f t) db)) = true ->
     In i (map id db) /\ in_int64 i = true /\ f <> None /\ t <> None) /\
  (is_success (fst (serve (DeleteCall i) db)) = true <->
     In i (map id db) /\ in_int64 i = true).
Proof.
  rewrite serve_initiate_call, serve_update_call, serve_delete_call.
  split; [|split].
  - destruct (not_null f && not_null t) eqn:E; [|discriminate].
    intros _. now apply not_null_both.
  - destruct (in_int64 i); [|discriminate].
    destruct (find (where_id i) db) as [r|] eqn:Hfind; [|discriminate].
    destruct (not_null f && not_null t) eqn:E; [|discriminate].
    intros _. split; [now apply (find_where_id_In db i r)|].
    split; [reflexivity | now apply not_null_both].
  - destruct (in_int64 i).
    + destruct (find (where_id i) db) as [r|] eqn:Hfind.
      * split; [|reflexivity]. intros _.
        split; [now apply (find_where_id_In db i r) | reflexivity].
      * split; [discriminate|]. intros [Hin _].
        destruct (find_where_id_present _ _ Hin) as [r [Hr _]]. congruence.
    + split; [discriminate|]. intros [_ H]. discriminate.
Qed.

Lemma success_conditions_witness :
  (is_success (fst (serve (InitiateCall "2024-05-01T12:00:00" (Some "900") None)
                          three_calls)) = true ->
     Some "900" <> None /\ @None string <> None) /\
  (is_success (fst (serve (UpdateCall 2 (Some "900") None) three_calls)) = true ->
     In 2 (map id three_calls) /\ in_int64 2 = true /\
     Some "900" <> None /\ @None string <> None) /\
  (is_success (fst (serve (DeleteCall 2) three_calls)) = true <->
     In 2 (map id three_calls) /\ in_int64 2 = true).
Proof.
  apply (success_conditions three_calls "2024-05-01T12:00:00" 2 (Some "900") None).
Defined.

(** X13. An updated call is listed under its new numbers: after an update
    of an existing record (its id a 64-bit integer, as every stored id
    is) with texts [a] and [b], the listing for either
    of them (if not empty), page 1 and a page size that holds all its
    matches, answers with data that has the record with its id, the new
    numbers and its old [start_time]. *)
Theorem updated_call_listed db r a b phone k :
  In r db -> in_int64 (id r) = true -> phone <> "" -> phone = a \/ phone = b ->
  Z.of_nat (List.length
              (spec_matches phone (snd (serve (UpdateCall (id r) (Some a) (Some b)) db))))
    <= k ->
  exists calls,
    fst (serve (CallReport (Some phone) (Some 1) (Some k))
               (snd (serve (UpdateCall (id r) (Some a) (Some b)) db))) =
      inl (Response (call_data calls) 200) /\
    In (call_dict (mkRow (id r) (Some a) (Some b) (start_time r))) calls.
Proof.
  intros Hr Hfits Hne Hph. rewrite serve_update_call, Hfits.
  destruct (find_where_id_present db (id r)) as [r0 [-> _]]; [now apply in_map|].
  cbn [not_null andb snd]. intros Hlen.
  set (db' := map _ db) in *.
  assert (Hin : In (mkRow (id r) (Some a) (Some b) (start_time r)) (spec_matches phone db')).
  { apply filter_In. split.
    - subst db'. apply in_map_iff. exists r. split; [|assumption].
      unfold where_id. now rewrite Z.eqb_refl.
    - cbn [from_number to_number]. now apply is_phone_either. }
  exists (map call_dict (spec_matches phone db')). split.
  - now rewrite (serve_call_report_all phone k db' _ Hne Hin Hlen).
  - now apply in_map.
Qed.

Lemma updated_call_listed_witness :
  exists calls,
    fst (serve (CallReport (Some "700") (Some 1) (Some 10))
               (snd (serve (UpdateCall 3 (Some "700") (Some "800")) three_calls))) =
      inl (Response (call_data calls) 200) /\
    In (call_dict (mkRow 3 (Some "700") (Some "800") (Some "2024-05-01T10:10:00"))) calls.
Proof.
  apply (updated_call_listed three_calls
           (mkRow 3 (Some "300") (Some "400") (Some "2024-05-01T10:10:00"))
           "700" "800" "700" 10).
  - vm_compute. tauto.
  - reflexivity.
  - discriminate.
  - left. reflexivity.
  - vm_compute. discriminate.
Defined.

(** X14. After a delete request for an id that fits 64 bits, whatever it
    answered, no record has that id: a second delete and an update of that
    id both answer "Call not found" with status 404 and change nothing. *)
Theorem delete_call_then_not_found db i f t :
  in_int64 i = true ->
  serve (DeleteCall i) (snd (serve (DeleteCall i) db)) =
    (inl (Response call_not_found 404), snd (serve (DeleteCall i) db)) /\
  serve (UpdateCall i f t) (snd (serve (DeleteCall i) db)) =
    (inl (Response call_not_found 404), snd (serve (DeleteCall i) db)).
Proof.
  intros Hfits.
  assert (Hgone : find (where_id i) (snd (serve (DeleteCall i) db)) = None).
  { rewrite serve_delete_call, Hfits.
    destruct (find (where_id i) db) as [r|] eqn:Hfind; cbn [snd];
      [apply find_after_delete | assumption]. }
  rewrite serve_delete_call at 1. rewrite serve_update_call.
  now rewrite Hfits, Hgone.
Qed.

Lemma delete_call_then_not_found_witness :
  serve (DeleteCall 2) (snd (serve (DeleteCall 2) three_calls)) =
    (inl (Response call_not_found 404), snd (serve (DeleteCall 2) three_calls)) /\
  serve (UpdateCall 2 (Some "500") (Some "600")) (snd (serve (DeleteCall 2) three_calls)) =
    (inl (Response call_not_found 404), snd (serve (DeleteCall 2) three_calls)).
Proof.
  apply (delete_call_then_not_found three_calls 2 (Some "500") (Some "600")).
  reflexivity.
Defined.

(** X15. A request that is not answered with status 200 changes nothing:
    whether it ends in a 404, a 500 or an exception, the store after it is
    the store before it. *)
Theorem failed_request_changes_nothing rq db :
  is_success (fst (serve rq db)) = false -> snd (serve rq db) = db.
Proof.
  destruct rq as [now f t|phone page size|i f t|i].
  - rewrite serve_initiate_call.
    destruct (not_null f && not_null t); [discriminate | reflexivity].
  - intros _. apply serve_call_report_store.
  - rewrite serve_update_call.
    destruct (in_int64 i); [|reflexivity].
    destruct (find (where_id i) db) as [r|]; [|reflexivity].
    destruct (not_null f && not_null t); [discriminate | reflexivity].
  - rewrite serve_delete_call.
    destruct (in_int64 i); [|reflexivity].
    destruct (find (where_id i) db) as [r|]; [discriminate | reflexivity].
Qed.

Lemma failed_request_changes_nothing_witness :
  snd (serve (UpdateCall 2 None (Some "600")) three_calls) = three_calls.
Proof.
  apply (failed_request_changes_nothing (UpdateCall 2 None (Some "600")) three_calls).
  reflexivity.
Defined.

(** X16. Whatever the request and the store, a handler that answers does
    so with status 200, 404 or 500, never with another one. *)
Theorem response_statuses rq db r :
  fst (serve rq db) = inl r -> status r = 200 \/ status r = 404 \/ status r = 500.
Proof.
  destruct rq as [now f t|phone page size|i f t|i].
  - rewrite serve_initiate_call.
    destruct (not_null f && not_null t); cbn; intros E; injection E as <-; cbn; tauto.
  - destruct (falsy phone) eqn:E.
    + rewrite serve_call_report_falsy by assumption. cbn.
      intros E'; injection E' as <-; cbn; tauto.
    + destruct (falsy_false phone E) as [ph [-> Hne]].
      rewrite serve_call_report by assumption. cbn [fst].
      destruct (py_slice _ _ _); cbn; intros E'; injection E' as <-; cbn; tauto.
  - rewrite serve_update_call.
    destruct (in_int64 i); [|discriminate].
    destruct (find (where_id i) db) as [r0|];
      [destruct (not_null f && not_null t)|]; cbn;
      try discriminate; intros E; injection E as <-; cbn; tauto.
  - rewrite serve_delete_call.
    destruct (in_int64 i); [|discriminate].
    destruct (find (where_id i) db) as [r0|]; cbn;
      intros E; injection E as <-; cbn; tauto.
Qed.

Lemma response_statuses_witness :
  status (Response call_not_found 404) = 200 \/
  status (Response call_not_found 404) = 404 \/
  status (Response call_not_found 404) = 500.
Proof.
  apply (response_statuses (DeleteCall 999) three_calls (Response call_not_found 404)).
  reflexivity.
Defined.

(** X17. No request rewrites an id or a creation time: every record of the
    store after a request either was in the store before with the same
    [id] and the same [start_time], or is the record a create has just
    added, with the next rowid and the creation time of the request. *)
Theorem request_keeps_id_and_start_time rq db r' :
  In r' (snd (serve rq db)) ->
  (exists r, In r db /\ id r = id r' /\ start_time r = start_time r') \/
  (exists now f t,
     rq = InitiateCall now f t /\ r' = mkRow (next_rowid db) f t (Some now)).
Proof.
  assert (Hsame : In r' db ->
    exists r, In r db /\ id r = id r' /\ start_time r = start_time r')
    by (intros H; now exists r').
  destruct rq as [now f t|phone page size|i f t|i].
  - rewrite serve_initiate_call.
    destruct (not_null f && not_null t); cbn [snd]; [|now left; apply Hsame].
    intros Hin. apply in_app_or in Hin. destruct Hin as [Hin|[<-|[]]].
    + left. now apply Hsame.
    + right. now exists now, f, t.
  - rewrite serve_call_report_store. intros Hin. left. now apply Hsame.
  - rewrite serve_update_call.
    destruct (in_int64 i); [|now left; apply Hsame].
    destruct (find (where_id i) db) as [r0|]; [|now left; apply Hsame].
    destruct (not_null f && not_null t); cbn [snd]; [|now left; apply Hsame].
    intros Hin. apply in_map_iff in Hin. destruct Hin as [r [<- Hr]].
    left. exists r. split; [assumption|].
    now destruct (where_id i r).
  - rewrite serve_delete_call.
    destruct (in_int64 i); [|now left; apply Hsame].
    destruct (find (where_id i) db) as [r0|]; cbn [snd]; [|now left; apply Hsame].
    intros Hin. apply filter_In in Hin. left. now apply Hsame.
Qed.

Lemma request_keeps_id_and_start_time_witness :
  (exists r, In r three_calls /\
             id r = id (mkRow 2 (Some "500") (Some "600") (Some "2024-05-01T10:05:00")) /\
             start_time r =
               start_time (mkRow 2 (Some "500") (Some "600") (Some "2024-05-01T10:05:00"))) \/
  (exists now f t,
     UpdateCall 2 (Some "500") (Some "600") = InitiateCall now f t /\
     mkRow 2 (Some "500") (Some "600") (Some "2024-05-01T10:05:00") =
       mkRow (next_rowid three_calls) f t (Some now)).
Proof.
  apply (request_keeps_id_and_start_time (UpdateCall 2 (Some "500") (Some "600"))
           three_calls).
  vm_compute. tauto.
Defined.

Lemma serve_ids_positive rq db :
  Forall (fun r => 1 <= id r) db -> Forall (fun r => 1 <= id r) (snd (serve rq db)).
Proof.
  intros H. rewrite Forall_forall in *. intros r' Hin.
  destruct rq as [now f t|phone page size|i f t|i].
  - rewrite serve_initiate_call in Hin.
    destruct (not_null f && not_null t); cbn [snd] in Hin; [|now apply H].
    apply in_app_or in Hin. destruct Hin as [Hin|[<-|[]]]; [now apply H|].
    cbn [id]. unfold next_rowid.
    destruct (max_rowid db) as [m|] eqn:Hmax; [|lia].
    destruct (max_rowid_member db m Hmax) as [r [Hr <-]].
    specialize (H r Hr). lia.
  - rewrite serve_call_report_store in Hin. now apply H.
  - rewrite serve_update_call in Hin.
    destruct (in_int64 i); [|now apply H].
    destruct (find (where_id i) db) as [r0|]; [|now apply H].
    destruct (not_null f && not_null t); cbn [snd] in Hin; [|now apply H].
    apply in_map_iff in Hin. destruct Hin as [r [<- Hr]].
    specialize (H r Hr). now destruct (where_id i r).
  - rewrite serve_delete_call in Hin.
    destruct (in_int64 i); [|now apply H].
    destruct (find (where_id i) db) as [r0|]; cbn [snd] in Hin; [|now apply H].
    apply filter_In in Hin. now apply H.
Qed.

(** X18. Whatever requests were served since the table was created empty,
    the ids of the store are at least 1 and in strictly ascending order
    (so no two records share one), and every record has a creation time. *)
Theorem reachable_store_invariants rqs :
  StronglySorted Z.lt (map id (run rqs [])) /\
  forall r, In r (run rqs []) -> 1 <= id r /\ start_time r <> None.
Proof.
  split.
  - apply (run_invariant rowid_order serve_rowid_order). constructor.
  - intros r Hr. split.
    + pose proof (run_invariant _ serve_ids_positive rqs [] (Forall_nil _)) as H.
      rewrite Forall_forall in H. now apply H.
    + pose proof (run_not_null rqs) as H. rewrite Forall_forall in H.
      specialize (H r Hr). unfold row_not_null in H.
      destruct (start_time r); [discriminate|].
      now rewrite andb_false_r in H.
Qed.

Lemma initiate_call_appends_witness :
  snd (serve (InitiateCall "2024-05-01T12:00:00" (Some "900") (Some "")) three_calls) =
    three_calls ++ [mkRow (next_rowid three_calls) (Some "900") (Some "")
                          (Some "2024-05-01T12:00:00")] /\
  forall r, In r three_calls -> id r < next_rowid three_calls.
Proof.
  apply (initiate_call_appends three_calls "2024-05-01T12:00:00" (Some "900") (Some "")).
  reflexivity.
Defined.

Lemma reachable_store_invariants_witness :
  StronglySorted Z.lt
    (map id (run [InitiateCall "2024-05-01T10:00:00" (Some "100") (Some "200");
                  InitiateCall "2024-05-01T10:05:00" (Some "300") (Some "100");
                  DeleteCall 2;
                  InitiateCall "2024-05-01T10:10:00" (Some "300") (Some "400")] [])) /\
  forall r,
    In r (run [InitiateCall "2024-05-01T10:00:00" (Some "100") (Some "200");
               InitiateCall "2024-05-01T10:05:00" (Some "300") (Some "100");
               DeleteCall 2;
               InitiateCall "2024-05-01T10:10:00" (Some "300") (Some "400")] []) ->
    1 <= id r /\ start_time r <> None.
Proof.
  apply (reachable_store_invariants
           [InitiateCall "2024-05-01T10:00:00" (Some "100") (Some "200");
            InitiateCall "2024-05-01T10:05:00" (Some "300") (Some "100");
            DeleteCall 2;
            InitiateCall "2024-05-01T10:10:00" (Some "300") (Some "400")]).
Defined.

(** X19. For every store and every id that fits 64 bits and that no record
    has, the update and the delete both answer "Call not found" with
    status 404 and leave the store exactly as it was. *)
Theorem not_found_changes_nothing db i f t :
  in_int64 i = true -> ~ In i (map id db) ->
  serve (UpdateCall i f t) db = (inl (Response call_not_found 404), db) /\
  serve (DeleteCall i) db = (inl (Response call_not_found 404), db).
Proof.
  intros Hfits Habsent. rewrite serve_update_call, serve_delete_call, Hfits.
  now rewrite (find_where_id_absent db i Habsent).
Qed.

Lemma not_found_changes_nothing_witness :
  serve (UpdateCall 999 (Some "500") (Some "600")) three_calls =
    (inl (Response call_not_found 404), three_calls) /\
  serve (DeleteCall 999) three_calls =
    (inl (Response call_not_found 404), three_calls).
Proof.
  apply (not_found_changes_nothing three_calls 999 (Some "500") (Some "600")).
  - reflexivity.
  - vm_compute. intuition discriminate.
Defined.
